(** * django-rest-friendship: the REST views over the friendship library

    A shallow embedding of [rest_friendship/views.py] and
    [rest_friendship/serializers.py].  The views are glue: every decision
    about the friendship graph is taken by the external [friendship]
    library and by the web framework.  The embedding therefore keeps the
    external calls symbolic: a view is a finite program whose nodes are
    the calls it makes, and it is run against an arbitrary implementation
    of the library, recording the trace of calls. *)

From stdpp Require Import gmap strings list fin_maps.
From Stdlib Require Import ZArith.

Local Open Scope Z_scope.
#[local] Set Warnings "-register-all".

(** ** Python values *)

(** The values that travel through request payloads and response bodies. *)
Inductive value : Type :=
| VNone
| VBool (b : bool)
| VInt (n : Z)
| VStr (s : string)
| VList (l : list value)
| VDict (kvs : list (string * value)).

(** Python truthiness, as used by [if expr:]. *)
Definition truthy (v : value) : bool :=
  match v with
  | VNone => false
  | VBool b => b
  | VInt n => negb (n =? 0)
  | VStr s => negb (String.eqb s "")
  | VList l => match l with [] => false | _ => true end
  | VDict kvs => match kvs with [] => false | _ => true end
  end.

(** [d.get(key, default)] on a dict. *)
Definition dict_get (d : gmap string value) (key : string) (default : value) : value :=
  match d !! key with
  | Some v => v
  | None => default
  end.

(** The keys of a dict value, in order ([None] on a value that is no dict). *)
Definition dict_keys (v : value) : option (list string) :=
  match v with
  | VDict kvs => Some (kvs.*1)
  | _ => None
  end.

(** ** The models the views see *)

(** The host framework's user model: [get_user_model()]. *)
Module User.
Record t : Type := mk { pk : Z; username : string; email : string }.

(** [u == v] on model instances compares primary keys. *)
Definition eqb (u v : t) : bool := pk u =? pk v.
End User.

(** [friendship.models.FriendshipRequest]; the three timestamps are kept
    as their ISO 8601 text, [rejected] and [viewed] are null until set. *)
Module FriendshipRequest.
Record t : Type := mk {
  id : Z;
  from_user : User.t;
  to_user : User.t;
  message : value;
  created : string;
  rejected : option string;
  viewed : option string
}.

(** A nullable timestamp column as a Python value. *)
Definition nullable (t : option string) : value :=
  match t with
  | Some s => VStr s
  | None => VNone
  end.
End FriendshipRequest.

(** What a serializer is handed: a model instance of either model. *)
Inductive instance : Type :=
| IUser (u : User.t)
| IRequest (r : FriendshipRequest.t).

(** [getattr(instance, name)], [None] when the model has no such field. *)
Definition getattr (i : instance) (name : string) : option value :=
  match i with
  | IUser u =>
      if String.eqb name "pk" then Some (VInt (User.pk u))
      else if String.eqb name "id" then Some (VInt (User.pk u))
      else if String.eqb name "username" then Some (VStr (User.username u))
      else if String.eqb name "email" then Some (VStr (User.email u))
      else None
  | IRequest r =>
      if String.eqb name "pk" then Some (VInt (FriendshipRequest.id r))
      else if String.eqb name "id" then Some (VInt (FriendshipRequest.id r))
      else if String.eqb name "from_user" then Some (VInt (User.pk (FriendshipRequest.from_user r)))
      else if String.eqb name "to_user" then Some (VInt (User.pk (FriendshipRequest.to_user r)))
      else if String.eqb name "message" then Some (FriendshipRequest.message r)
      else if String.eqb name "created" then Some (VStr (FriendshipRequest.created r))
      else if String.eqb name "rejected" then
        Some (FriendshipRequest.nullable (FriendshipRequest.rejected r))
      else if String.eqb name "viewed" then
        Some (FriendshipRequest.nullable (FriendshipRequest.viewed r))
      else None
  end.

(** ** Exceptions *)

Inductive exn : Type :=
| Http404
| AlreadyExistsError (msg : string)
| AlreadyFriendsError (msg : string)
| OtherError (cls : string) (msg : string).

(** [str(e)]. *)
Definition str (e : exn) : string :=
  match e with
  | Http404 => ""
  | AlreadyExistsError msg => msg
  | AlreadyFriendsError msg => msg
  | OtherError _ msg => msg
  end.

(** Results of fallible computations: [inl e] is a raised exception. *)
Definition result (A : Type) : Type := exn + A.

Definition result_bind {A B : Type} (r : result A) (f : A → result B) : result B :=
  match r with
  | inl e => inl e
  | inr a => f a
  end.

Fixpoint result_mapM {A B : Type} (f : A → result B) (l : list A) : result (list B) :=
  match l with
  | [] => inr []
  | a :: l' =>
      result_bind (f a) (λ b, result_bind (result_mapM f l') (λ bs, inr (b :: bs)))
  end.

(** ** HTTP requests and responses *)

Module Request.
Record t : Type := mk { user : User.t; data : gmap string value }.
End Request.

Module status.
Definition HTTP_200_OK : Z := 200.
Definition HTTP_201_CREATED : Z := 201.
Definition HTTP_204_NO_CONTENT : Z := 204.
Definition HTTP_400_BAD_REQUEST : Z := 400.
End status.

Module Response.
Record t : Type := mk { data : value; status_code : Z }.

(** [Response(data)]: the status defaults to 200. *)
Definition ok (d : value) : t := mk d status.HTTP_200_OK.
End Response.

(** ** Serializers *)

(** A serializer class, by its name and what it makes of one instance. *)
Record Serializer : Type := {
  ser_name : string;
  to_representation : instance → result value
}.

(** The first argument of a serializer: one instance, or with [many=True]
    a sequence of them. *)
Inductive serializer_arg : Type :=
| one (i : instance)
| many (l : list instance).

(** [cls(arg).data], respectively [cls(arg, many=True).data]. *)
Definition data_of (cls : Serializer) (arg : serializer_arg) : result value :=
  match arg with
  | one i => to_representation cls i
  | many l => result_bind (result_mapM (to_representation cls) l) (λ vs, inr (VList vs))
  end.

(** [serializers.ModelSerializer] with [Meta.fields = fields]: one entry per
    declared field, in the declared order. *)
Definition ModelSerializer (name : string) (fields : list string) : Serializer := {|
  ser_name := name;
  to_representation i :=
    result_bind
      (result_mapM
         (λ f, match getattr i f with
               | Some v => inr (f, v)
               | None => inl (OtherError "ImproperlyConfigured" f)
               end) fields)
      (λ kvs, inr (VDict kvs))
|}.

(** serializers.py *)
Module serializers.
(** [class Meta] of [UserSerializer]; its [model] is [User.t]. *)
Module Meta.
Definition fields : list string := ["pk"; "username"; "email"]%string.
End Meta.

Definition UserSerializer : Serializer :=
  ModelSerializer "UserSerializer" Meta.fields.
End serializers.

(** ** External calls *)

(** The calls a view makes outside this repository: the framework's
    [get_object_or_404], the friendship library's manager and request
    methods, permission classes and serializers. *)
Inductive call : Type → Type :=
| get_object_or_404_User (kwargs : gmap string value) : call User.t
| get_object_or_404_FriendshipRequest (pk : value) : call FriendshipRequest.t
| Friend_friends (user : User.t) : call (list User.t)
| Friend_are_friends (user1 user2 : User.t) : call value
| Friend_unrejected_requests (user : User.t) : call (list FriendshipRequest.t)
| Friend_sent_requests (user : User.t) : call (list FriendshipRequest.t)
| Friend_rejected_requests (user : User.t) : call (list FriendshipRequest.t)
| Friend_add_friend (from_user to_user : User.t) (message : value) : call FriendshipRequest.t
| Friend_remove_friend (from_user to_user : User.t) : call value
| FriendshipRequest_accept (r : FriendshipRequest.t) : call value
| FriendshipRequest_reject (r : FriendshipRequest.t) : call value
| has_permission (permission : string) (request : Request.t) : call value
| serializer_data (cls : Serializer) (arg : serializer_arg) : call value.

(** ** View programs *)

(** A view is a finite tree: it returns, raises, or makes a call and goes
    on with what the call returned or raised. *)
Inductive prog (A : Type) : Type :=
| Ret (a : A)
| Raise (e : exn)
| Call {X : Type} (c : call X) (k : result X → prog A).

Arguments Ret {A} a.
Arguments Raise {A} e.
Arguments Call {A X} c k.

Fixpoint bind {A B : Type} (p : prog A) (f : A → prog B) : prog B :=
  match p with
  | Ret a => f a
  | Raise e => Raise e
  | Call c k => Call c (λ r, bind (k r) f)
  end.

(** A call whose exception, if any, propagates. *)
Definition perform {X : Type} (c : call X) : prog X :=
  Call c (λ r, match r with inl e => Raise e | inr x => Ret x end).

(** [try: p except ... as e: handler e]; [handler e = None] when no
    [except] clause matches [e], which then propagates. *)
Fixpoint try_except {A : Type} (p : prog A) (handler : exn → option (prog A)) : prog A :=
  match p with
  | Ret a => Ret a
  | Raise e => match handler e with Some q => q | None => Raise e end
  | Call c k => Call c (λ r, try_except (k r) handler)
  end.

#[global] Instance prog_ret : MRet prog := @Ret.
#[global] Instance prog_bind : MBind prog := λ A B f p, bind p f.

(** ** Running a view against an implementation of the outside world *)

(** An implementation of the external calls over a state [W] (the
    database, the cache). *)
Definition library (W : Type) : Type := ∀ X : Type, call X → W → result X * W.

(** One call: serializers compute from their class alone, everything else
    is the library's. *)
Definition interp {W : Type} (lib : library W) {X : Type} (c : call X) (w : W) : result X * W :=
  match c in call X0 return result X0 * W with
  | serializer_data cls arg => (data_of cls arg, w)
  | c0 => lib _ c0 w
  end.

(** A call together with what it returned or raised. *)
Inductive event : Type :=
| Ev {X : Type} (c : call X) (r : result X).

Module Outcome.
Record t (A W : Type) : Type := mk {
  returned : result A;
  world : W;
  trace : list event
}.
Arguments mk {A W} returned world trace.
Arguments returned {A W} _.
Arguments world {A W} _.
Arguments trace {A W} _.
End Outcome.

Fixpoint run {W A : Type} (lib : library W) (p : prog A) (w : W) : Outcome.t A W :=
  match p with
  | Ret a => Outcome.mk (inr a) w []
  | Raise e => Outcome.mk (inl e) w []
  | Call c k =>
      let rw := interp lib c w in
      let o := run lib (k rw.1) rw.2 in
      Outcome.mk (Outcome.returned o) (Outcome.world o) (Ev c rw.1 :: Outcome.trace o)
  end.

(** ** views.py *)

(** The [REST_FRIENDSHIP] dict of the project settings; the two serializer
    entries are optional. *)
Module settings.
Record t : Type := mk {
  PERMISSION_CLASSES : list string;
  USER_SERIALIZER : option string;
  FRIENDSHIPREQUEST_SERIALIZER : option string
}.
End settings.

Module FriendViewSet.

(** The class attributes of the viewset.  Permission classes stay
    dotted paths: what they decide is the outside world's. *)
Record t : Type := mk {
  permission_classes : list string;
  serializer_class : Serializer;
  friendshiprequest_serializer_class : Serializer
}.

(** The module-level configuration.  [import_string] resolves a dotted
    path; [FriendSerializer] and [FriendshipRequestSerializer] are the
    defaults that views.py imports from the serializers module. *)
Definition configure (import_string : string → Serializer)
    (FriendSerializer FriendshipRequestSerializer : Serializer)
    (REST_FRIENDSHIP : settings.t) : t :=
  let PERMISSION_CLASSES := settings.PERMISSION_CLASSES REST_FRIENDSHIP in
  let USER_SERIALIZER :=
    match settings.USER_SERIALIZER REST_FRIENDSHIP with
    | Some path => import_string path
    | None => FriendSerializer
    end in
  let FRIENDSHIPREQUEST_SERIALIZER :=
    match settings.FRIENDSHIPREQUEST_SERIALIZER REST_FRIENDSHIP with
    | Some path => import_string path
    | None => FriendshipRequestSerializer
    end in
  mk PERMISSION_CLASSES USER_SERIALIZER FRIENDSHIPREQUEST_SERIALIZER.

(** The lookup dict that [get_user_from_friend_data] builds from the
    payload before it queries the user model. *)
Definition user_data (data : gmap string value) (allow_id : bool) : gmap string value :=
  let user_data : gmap string value := ∅ in
  let user_data :=
    match data !! "username" with
    | Some v => <["username" := v]> user_data
    | None => user_data
    end in
  (* Keep compatibility *)
  let user_data :=
    match data !! "to_user" with
    | Some v => <["username" := v]> user_data
    | None => user_data
    end in
  let user_data :=
    match data !! "email" with
    | Some v => <["email" := v]> user_data
    | None => user_data
    end in
  (* Prevent lookup by id *)
  let user_data :=
    if allow_id then
      match data !! "id" with
      | Some v => <["id" := v]> user_data
      | None => user_data
      end
    else user_data in
  user_data.

Definition get_user_from_friend_data (data : gmap string value) (allow_id : bool) : prog User.t :=
  perform (get_object_or_404_User (user_data data allow_id)).

(* The assignments to [self.queryset] and [self.http_method_names] in the
   actions below change attributes of the per-request view instance that
   nothing reads before the response is returned; the calls that compute
   the assigned values are kept. *)

Definition retrieve (self : t) (request : Request.t) (pk : value) : prog Response.t :=
  _ ← perform (Friend_friends (Request.user request));
  requested_user ← perform (get_object_or_404_User {["pk" := pk]});
  are ← perform (Friend_are_friends (Request.user request) requested_user);
  if truthy are then
    d ← perform (serializer_data (serializer_class self) (one (IUser requested_user)));
    mret (Response.ok d)
  else
    mret (Response.mk
            (VDict [("message", VStr "Friend relationship not found for user.")])
            status.HTTP_400_BAD_REQUEST).

Definition requests (self : t) (request : Request.t) : prog Response.t :=
  friend_requests ← perform (Friend_unrejected_requests (Request.user request));
  d ← perform (serializer_data (friendshiprequest_serializer_class self)
                 (many (IRequest <$> friend_requests)));
  mret (Response.ok d).

Definition sent_requests (self : t) (request : Request.t) : prog Response.t :=
  friend_requests ← perform (Friend_sent_requests (Request.user request));
  d ← perform (serializer_data (friendshiprequest_serializer_class self)
                 (many (IRequest <$> friend_requests)));
  mret (Response.ok d).

Definition rejected_requests (self : t) (request : Request.t) : prog Response.t :=
  friend_requests ← perform (Friend_rejected_requests (Request.user request));
  d ← perform (serializer_data (friendshiprequest_serializer_class self)
                 (many (IRequest <$> friend_requests)));
  mret (Response.ok d).

(** The [except (AlreadyExistsError, AlreadyFriendsError) as e] clause. *)
Definition add_friend_except (e : exn) : option (prog Response.t) :=
  match e with
  | AlreadyExistsError _ | AlreadyFriendsError _ =>
      Some (mret (Response.mk (VDict [("message", VStr (str e))])
                    status.HTTP_400_BAD_REQUEST))
  | _ => None
  end.

Definition add_friend (self : t) (request : Request.t) : prog Response.t :=
  to_user ← get_user_from_friend_data (Request.data request) false;
  try_except
    (friend_obj ← perform (Friend_add_friend
                             (* The sender *)
                             (Request.user request)
                             (* The recipient *)
                             to_user
                             (* Message (...or empty str) *)
                             (dict_get (Request.data request) "message" (VStr "")));
     d ← perform (serializer_data (friendshiprequest_serializer_class self)
                    (one (IRequest friend_obj)));
     mret (Response.mk d status.HTTP_201_CREATED))
    add_friend_except.

Definition remove_friend (self : t) (request : Request.t) : prog Response.t :=
  to_user ← get_user_from_friend_data (Request.data request) true;
  removed ← perform (Friend_remove_friend (Request.user request) to_user);
  let '(message, status_code) :=
    if truthy removed then ("Friend deleted.", status.HTTP_204_NO_CONTENT)
    else ("Friend not found.", status.HTTP_400_BAD_REQUEST) in
  mret (Response.mk (VDict [("message", VStr message)]) status_code).

Definition accept_request (self : t) (request : Request.t) : prog Response.t :=
  let id := dict_get (Request.data request) "id" VNone in
  friendship_request ← perform (get_object_or_404_FriendshipRequest id);
  if negb (User.eqb (FriendshipRequest.to_user friendship_request) (Request.user request)) then
    mret (Response.mk (VDict [("message", VStr "Request for current user not found.")])
            status.HTTP_400_BAD_REQUEST)
  else
    _ ← perform (FriendshipRequest_accept friendship_request);
    mret (Response.mk (VDict [("message", VStr "Request accepted, user added to friends.")])
            status.HTTP_201_CREATED).

Definition reject_request (self : t) (request : Request.t) : prog Response.t :=
  let id := dict_get (Request.data request) "id" VNone in
  friendship_request ← perform (get_object_or_404_FriendshipRequest id);
  if negb (User.eqb (FriendshipRequest.to_user friendship_request) (Request.user request)) then
    mret (Response.mk (VDict [("message", VStr "Request for current user not found.")])
            status.HTTP_400_BAD_REQUEST)
  else
    _ ← perform (FriendshipRequest_reject friendship_request);
    mret (Response.mk (VDict [("message", VStr "Request rejected, user NOT added to friends.")])
            status.HTTP_201_CREATED).

Definition list (self : t) (request : Request.t) : prog Response.t :=
  friend_requests ← perform (Friend_friends (Request.user request));
  d ← perform (serializer_data (serializer_class self) (many (IUser <$> friend_requests)));
  mret (Response.ok d).

End FriendViewSet.

(** ** Request dispatch *)

(** The actions of the viewset that views.py defines. *)
Inductive action : Type :=
| a_list
| a_retrieve (pk : value)
| a_requests
| a_sent_requests
| a_rejected_requests
| a_add_friend
| a_remove_friend
| a_accept_request
| a_reject_request.

Definition action_handler (a : action) : FriendViewSet.t → Request.t → prog Response.t :=
  match a with
  | a_list => FriendViewSet.list
  | a_retrieve pk => λ self request, FriendViewSet.retrieve self request pk
  | a_requests => FriendViewSet.requests
  | a_sent_requests => FriendViewSet.sent_requests
  | a_rejected_requests => FriendViewSet.rejected_requests
  | a_add_friend => FriendViewSet.add_friend
  | a_remove_friend => FriendViewSet.remove_friend
  | a_accept_request => FriendViewSet.accept_request
  | a_reject_request => FriendViewSet.reject_request
  end.

(** Modelled from the spec: the permission check of the request dispatch
    that the viewset inherits from the framework's [ModelViewSet], code
    that is not under src/.  Each configured permission class is asked in
    turn; the first refusal raises and ends the request. *)
Fixpoint check_permissions (permission_classes : list string) (request : Request.t) : prog unit :=
  match permission_classes with
  | [] => mret tt
  | permission :: rest =>
      granted ← perform (has_permission permission request);
      if truthy granted then check_permissions rest request
      else Raise (OtherError "PermissionDenied" "You do not have permission to perform this action.")
  end.

(** Modelled from the spec: the inherited dispatch itself, "HTTP request →
    permission check → view action → external library call → serializer →
    HTTP response". *)
Definition dispatch (self : FriendViewSet.t)
    (handler : FriendViewSet.t → Request.t → prog Response.t)
    (request : Request.t) : prog Response.t :=
  _ ← check_permissions (FriendViewSet.permission_classes self) request;
  handler self request.

(** ** Classifying the trace *)

Definition is_permission_check (ev : event) : bool :=
  match ev with
  | Ev (has_permission _ _) _ => true
  | _ => false
  end.

Definition is_serialization (ev : event) : bool :=
  match ev with
  | Ev (serializer_data _ _) _ => true
  | _ => false
  end.

(** A call into the friendship library or the framework's object lookup. *)
Definition is_library_call (ev : event) : bool :=
  negb (is_permission_check ev) && negb (is_serialization ev).

(** The exception an event carries, when its call raised. *)
Definition raised (ev : event) : option exn :=
  match ev with
  | Ev _ (inl e) => Some e
  | Ev _ (inr _) => None
  end.

(** A permission check that did not grant: a falsy answer, or a raise. *)
Definition denied (ev : event) : bool :=
  match ev with
  | Ev (has_permission _ _) (inr granted) => negb (truthy granted)
  | Ev (has_permission _ _) (inl _) => true
  | _ => false
  end.

(** The exception classes named by an [except] clause of the repository. *)
Definition caught_in_repository (e : exn) : bool :=
  match e with
  | AlreadyExistsError _ | AlreadyFriendsError _ => true
  | _ => false
  end.

(** A program that handles nothing: whatever a call raises is raised on
    at once. *)
Fixpoint propagating {A : Type} (p : prog A) : Prop :=
  match p with
  | Ret _ | Raise _ => True
  | Call c k => (∀ e, k (inl e) = Raise e) ∧ ∀ x, propagating (k (inr x))
  end.

(** The filters of the user lookup that opens a trace, if one does. *)
Definition first_lookup (tr : list event) : option (gmap string value) :=
  match tr with
  | Ev (get_object_or_404_User kwargs) _ :: _ => Some kwargs
  | _ => None
  end.

(** ** An in-memory friendship library *)

(** A small executable stand-in for the framework and the friendship
    library, over lists.  The views are proved against every [library];
    this one serves to run them on concrete requests. *)
Module InMemory.

Record world : Type := mk {
  users : list User.t;
  friends : list (Z * Z);
  pending : list FriendshipRequest.t;
  next_id : Z;
  now : string
}.

Definition value_eqb (a b : value) : bool :=
  match a, b with
  | VNone, VNone => true
  | VBool x, VBool y => Bool.eqb x y
  | VInt x, VInt y => x =? y
  | VStr x, VStr y => String.eqb x y
  | _, _ => false
  end.

Definition lookup_matches (kwargs : gmap string value) (u : User.t) : bool :=
  forallb (λ kv : string * value,
             match getattr (IUser u) kv.1 with
             | Some a => value_eqb a kv.2
             | None => false
             end) (map_to_list kwargs).

Definition get_user (w : world) (kwargs : gmap string value) : result User.t :=
  match List.filter (lookup_matches kwargs) (users w) with
  | [] => inl Http404
  | [u] => inr u
  | _ => inl (OtherError "MultipleObjectsReturned" "get() returned more than one User")
  end.

Definition get_request (w : world) (pk : value) : result FriendshipRequest.t :=
  match List.filter (λ r, value_eqb (VInt (FriendshipRequest.id r)) pk) (pending w) with
  | r :: _ => inr r
  | [] => inl Http404
  end.

Definition are_friends (w : world) (u v : User.t) : bool :=
  existsb (λ p : Z * Z, (p.1 =? User.pk u) && (p.2 =? User.pk v)) (friends w).

Definition requests_where (w : world) (P : FriendshipRequest.t → bool) : list FriendshipRequest.t :=
  List.filter P (pending w).

Definition add_friend (w : world) (from_user to_user : User.t) (message : value)
    : result FriendshipRequest.t * world :=
  if User.eqb from_user to_user then
    (inl (OtherError "ValidationError" "Users cannot be friends with themselves"), w)
  else if are_friends w from_user to_user then
    (inl (AlreadyFriendsError "Users are already friends"), w)
  else if existsb (λ r, User.eqb (FriendshipRequest.from_user r) from_user
                        && User.eqb (FriendshipRequest.to_user r) to_user) (pending w) then
    (inl (AlreadyExistsError "You already requested friendship from this user."), w)
  else if existsb (λ r, User.eqb (FriendshipRequest.from_user r) to_user
                        && User.eqb (FriendshipRequest.to_user r) from_user) (pending w) then
    (inl (AlreadyExistsError "This user already requested friendship from you."), w)
  else
    let message := match message with VNone => VStr "" | _ => message end in
    let r := FriendshipRequest.mk (next_id w) from_user to_user message (now w) None None in
    (inr r, mk (users w) (friends w) (pending w ++ [r]) (next_id w + 1) (now w)).

Definition remove_friend (w : world) (from_user to_user : User.t) : value * world :=
  if are_friends w from_user to_user then
    let a := User.pk from_user in
    let b := User.pk to_user in
    (VBool true,
     mk (users w)
        (List.filter (λ p : Z * Z, negb (((p.1 =? a) && (p.2 =? b)) || ((p.1 =? b) && (p.2 =? a))))
           (friends w))
        (pending w) (next_id w) (now w))
  else (VBool false, w).

Definition accept (w : world) (r : FriendshipRequest.t) : value * world :=
  let a := User.pk (FriendshipRequest.from_user r) in
  let b := User.pk (FriendshipRequest.to_user r) in
  (VBool true,
   mk (users w) ((a, b) :: (b, a) :: friends w)
      (List.filter (λ r', negb (FriendshipRequest.id r' =? FriendshipRequest.id r)) (pending w))
      (next_id w) (now w)).

Definition reject (w : world) (r : FriendshipRequest.t) : value * world :=
  (VBool true,
   mk (users w) (friends w)
      ((λ r', if FriendshipRequest.id r' =? FriendshipRequest.id r
              then FriendshipRequest.mk (FriendshipRequest.id r') (FriendshipRequest.from_user r')
                     (FriendshipRequest.to_user r') (FriendshipRequest.message r')
                     (FriendshipRequest.created r') (Some (now w)) (FriendshipRequest.viewed r')
              else r') <$> pending w)
      (next_id w) (now w)).

(** [request.user] is a user model instance here, so the framework's
    [IsAuthenticated] grants it like [AllowAny] does;
    [project.permissions.IsKnownUser] stands for a permission class of the
    project's own, which grants the users of the table. *)
Definition permits (w : world) (permission : string) (request : Request.t) : bool :=
  String.eqb permission "rest_framework.permissions.AllowAny"
  || String.eqb permission "rest_framework.permissions.IsAuthenticated"
  || (String.eqb permission "project.permissions.IsKnownUser"
      && existsb (User.eqb (Request.user request)) (users w)).

Definition lib : library world := λ X c w,
  match c in call X0 return result X0 * world with
  | get_object_or_404_User kwargs => (get_user w kwargs, w)
  | get_object_or_404_FriendshipRequest pk => (get_request w pk, w)
  | Friend_friends user => (inr (List.filter (are_friends w user) (users w)), w)
  | Friend_are_friends user1 user2 => (inr (VBool (are_friends w user1 user2)), w)
  | Friend_unrejected_requests user =>
      (inr (requests_where w (λ r, User.eqb (FriendshipRequest.to_user r) user
                                   && bool_decide (FriendshipRequest.rejected r = None))), w)
  | Friend_sent_requests user =>
      (inr (requests_where w (λ r, User.eqb (FriendshipRequest.from_user r) user)), w)
  | Friend_rejected_requests user =>
      (inr (requests_where w (λ r, User.eqb (FriendshipRequest.to_user r) user
                                   && negb (bool_decide (FriendshipRequest.rejected r = None)))), w)
  | Friend_add_friend from_user to_user message => add_friend w from_user to_user message
  | Friend_remove_friend from_user to_user =>
      let '(v, w') := remove_friend w from_user to_user in (inr v, w')
  | FriendshipRequest_accept r => let '(v, w') := accept w r in (inr v, w')
  | FriendshipRequest_reject r => let '(v, w') := reject w r in (inr v, w')
  | has_permission permission request => (inr (VBool (permits w permission request)), w)
  | serializer_data cls arg => (data_of cls arg, w)
  end.

Definition alice : User.t := User.mk 1 "alice" "alice@example.org".
Definition bob : User.t := User.mk 2 "bob" "bob@example.org".
Definition carol : User.t := User.mk 3 "carol" "carol@example.org".

(** Carol has asked Alice. *)
Definition carol_to_alice : FriendshipRequest.t :=
  FriendshipRequest.mk 7 carol alice (VStr "hello") "2024-05-01T09:30:00Z" None None.

(** Alice and Bob are friends; Carol's request to Alice is pending. *)
Definition w0 : world :=
  mk [alice; bob; carol] [(1, 2); (2, 1)] [carol_to_alice] 8 "2024-05-02T12:00:00Z".

(** A serializer other than the repository's, as a project may configure. *)
Definition UsernameOnly : Serializer := ModelSerializer "UsernameOnly" ["username"]%string.

Definition RequestSerializer : Serializer :=
  ModelSerializer "FriendshipRequestSerializer"
    ["id"; "from_user"; "to_user"; "message"]%string.

Definition import_string (path : string) : Serializer :=
  if String.eqb path "rest_friendship.serializers.UserSerializer" then serializers.UserSerializer
  else if String.eqb path "project.serializers.UsernameOnly" then UsernameOnly
  else RequestSerializer.

(** The viewset under a settings dict that names the repository's
    [UserSerializer]. *)
Definition view : FriendViewSet.t :=
  FriendViewSet.configure import_string serializers.UserSerializer RequestSerializer
    (settings.mk ["rest_framework.permissions.IsAuthenticated"]%string
       (Some "rest_friendship.serializers.UserSerializer"%string) None).

(** The viewset under a settings dict that names a serializer of the
    project's own. *)
Definition custom_view : FriendViewSet.t :=
  FriendViewSet.configure import_string serializers.UserSerializer RequestSerializer
    (settings.mk ["rest_framework.permissions.IsAuthenticated"]%string
       (Some "project.serializers.UsernameOnly"%string) None).

(** The viewset behind the project's own permission class. *)
Definition known_users_view : FriendViewSet.t :=
  FriendViewSet.configure import_string serializers.UserSerializer RequestSerializer
    (settings.mk ["project.permissions.IsKnownUser"]%string
       (Some "rest_friendship.serializers.UserSerializer"%string) None).

(** A user the database does not know. *)
Definition stranger : User.t := User.mk 99 "mallory" "mallory@example.org".

(** The same library with the friends query out of order, as when the
    cache or the database behind it cannot be reached. *)
Definition lib_friends_unavailable : library world := λ X c w,
  match c in call X0 return result X0 * world with
  | Friend_friends _ => (inl (OtherError "OperationalError" "could not connect to server"), w)
  | c0 => lib _ c0 w
  end.

End InMemory.


(** ** What the actions may touch *)

(** The calls that change the friendship graph. *)
Definition is_mutation (ev : event) : bool :=
  match ev with
  | Ev (Friend_add_friend _ _ _) _ => true
  | Ev (Friend_remove_friend _ _) _ => true
  | Ev (FriendshipRequest_accept _) _ => true
  | Ev (FriendshipRequest_reject _) _ => true
  | _ => false
  end.

(** A library call made for user [u]: a query about [u], a request sent
    or a friendship removed in [u]'s name, a lifecycle call on a request
    addressed to [u].  Lookups, permission checks and serializations are
    made for anyone. *)
Definition on_behalf_of (u : User.t) (ev : event) : Prop :=
  match ev with
  | Ev (Friend_friends user) _ => user = u
  | Ev (Friend_are_friends user1 _) _ => user1 = u
  | Ev (Friend_unrejected_requests user) _ => user = u
  | Ev (Friend_sent_requests user) _ => user = u
  | Ev (Friend_rejected_requests user) _ => user = u
  | Ev (Friend_add_friend from_user _ _) _ => from_user = u
  | Ev (Friend_remove_friend from_user _) _ => from_user = u
  | Ev (FriendshipRequest_accept r) _ => User.eqb (FriendshipRequest.to_user r) u = true
  | Ev (FriendshipRequest_reject r) _ => User.eqb (FriendshipRequest.to_user r) u = true
  | _ => True
  end.

(** The actions routed to GET: [list], [retrieve] and the three
    [@action(detail=False)] listings. *)
Definition is_get (a : action) : bool :=
  match a with
  | a_list | a_retrieve _ | a_requests | a_sent_requests | a_rejected_requests => true
  | _ => false
  end.

(** The three listings of friendship requests, each with the action that
    serves it and the manager method it asks. *)
Inductive listing : Type :=
| unrejected
| sent
| rejected.

Definition listing_action (l : listing) : action :=
  match l with
  | unrejected => a_requests
  | sent => a_sent_requests
  | rejected => a_rejected_requests
  end.

Definition listing_query (l : listing) : User.t → call (list FriendshipRequest.t) :=
  match l with
  | unrejected => Friend_unrejected_requests
  | sent => Friend_sent_requests
  | rejected => Friend_rejected_requests
  end.

(** The keys of [request.data] that an action reads. *)
Definition payload_keys (a : action) : list string :=
  match a with
  | a_add_friend => ["username"; "to_user"; "email"; "message"]%string
  | a_remove_friend => ["username"; "to_user"; "email"; "id"]%string
  | a_accept_request | a_reject_request => ["id"]%string
  | _ => []
  end.

(** The serializer attribute of the viewset that an action reads. *)
Definition serializer_used (a : action) (self : FriendViewSet.t) : option Serializer :=
  match a with
  | a_list | a_retrieve _ => Some (FriendViewSet.serializer_class self)
  | a_requests | a_sent_requests | a_rejected_requests | a_add_friend =>
      Some (FriendViewSet.friendshiprequest_serializer_class self)
  | a_remove_friend | a_accept_request | a_reject_request => None
  end.

(** The status codes an action writes into a [Response]. *)
Definition statuses (a : action) : list Z :=
  match a with
  | a_list | a_requests | a_sent_requests | a_rejected_requests => [status.HTTP_200_OK]
  | a_retrieve _ => [status.HTTP_200_OK; status.HTTP_400_BAD_REQUEST]
  | a_add_friend | a_accept_request | a_reject_request =>
      [status.HTTP_201_CREATED; status.HTTP_400_BAD_REQUEST]
  | a_remove_friend => [status.HTTP_204_NO_CONTENT; status.HTTP_400_BAD_REQUEST]
  end.

(** A response body of the shape [{"message": "..."}]. *)
Definition is_message (d : value) : Prop :=
  ∃ msg : string, d = VDict [("message"%string, VStr msg)].

(** A viewset whose friendship-request serializer names a field the model
    does not have. *)
Definition misconfigured_view : FriendViewSet.t :=
  FriendViewSet.mk ["rest_framework.permissions.IsAuthenticated"]%string
    serializers.UserSerializer
    (ModelSerializer "FriendshipRequestSerializer" ["id"; "nickname"]%string).

(** * Properties *)

Arguments data_of : simpl never.
Arguments dict_get : simpl never.
Arguments FriendViewSet.user_data : simpl never.

(** ** The program monad *)

Lemma run_bind {W A B : Type} (lib : library W) (p : prog A) (f : A → prog B) (w : W) :
  run lib (p ≫= f) w =
    let o := run lib p w in
    match Outcome.returned o with
    | inl e => Outcome.mk (inl e) (Outcome.world o) (Outcome.trace o)
    | inr a =>
        let o' := run lib (f a) (Outcome.world o) in
        Outcome.mk (Outcome.returned o') (Outcome.world o') (Outcome.trace o ++ Outcome.trace o')
    end.
Proof.
  revert w. induction p as [a|e|X c k IH]; intros w.
  - cbn. by destruct (run lib (f a) w).
  - reflexivity.
  - change (run lib (Call c k ≫= f) w) with
      (let rw := interp lib c w in
       let o := run lib (k rw.1 ≫= f) rw.2 in
       Outcome.mk (Outcome.returned o) (Outcome.world o) (Ev c rw.1 :: Outcome.trace o)).
    cbn zeta. rewrite IH. cbn.
    by destruct (Outcome.returned (run lib (k (interp lib c w).1) (interp lib c w).2)).
Qed.

Lemma run_perform {W X : Type} (lib : library W) (c : call X) (w : W) :
  run lib (perform c) w =
    Outcome.mk (interp lib c w).1 (interp lib c w).2 [Ev c (interp lib c w).1].
Proof. unfold perform. cbn. by destruct (interp lib c w).1. Qed.

(** A [many=True] serialization is the item-wise one, in order. *)
Lemma result_mapM_inr {A B : Type} (f : A → result B) (l : list A) (bs : list B) :
  result_mapM f l = inr bs → Forall2 (λ a b, f a = inr b) l bs.
Proof.
  revert bs. induction l as [|a l IH]; intros bs; cbn.
  - intros [= <-]. constructor.
  - destruct (f a) as [e|b] eqn:Hfa; cbn; [done|].
    destruct (result_mapM f l) as [e|bs'] eqn:Hl; cbn; [done|].
    intros [= <-]. constructor; [done|]. by apply IH.
Qed.

Lemma data_of_many (cls : Serializer) (l : list instance) (d : value) :
  data_of cls (many l) = inr d →
  ∃ vs, d = VList vs ∧ Forall2 (λ i v, to_representation cls i = inr v) l vs.
Proof.
  unfold data_of. destruct (result_mapM (to_representation cls) l) as [e|vs] eqn:H; cbn; [done|].
  intros [= <-]. exists vs. split; [done|]. by apply result_mapM_inr.
Qed.

(** ** list *)

(** C5: the body of a list response is the many-item serialization, by
    the configured user serializer, of exactly what
    [Friend.objects.friends(user=request.user)] returned: the same users
    in the same order, one serialized item each. *)
Theorem list_serializes_friends {W : Type} (lib : library W) (self : FriendViewSet.t)
    (request : Request.t) (w w1 : W) (friends : list User.t) :
  lib _ (Friend_friends (Request.user request)) w = (inr friends, w1) →
  let cls := FriendViewSet.serializer_class self in
  let o := run lib (FriendViewSet.list self request) w in
  Outcome.returned o
    = result_bind (data_of cls (many (IUser <$> friends))) (λ d, inr (Response.ok d))
  ∧ Outcome.world o = w1
  ∧ Outcome.trace o
    = [Ev (Friend_friends (Request.user request)) (inr friends);
       Ev (serializer_data cls (many (IUser <$> friends)))
          (data_of cls (many (IUser <$> friends)))]
  ∧ ∀ resp, Outcome.returned o = inr resp →
      ∃ items, Response.data resp = VList items
               ∧ Response.status_code resp = status.HTTP_200_OK
               ∧ Forall2 (λ u item, to_representation cls (IUser u) = inr item) friends items.
Proof.
  intros H cls o. subst o. unfold FriendViewSet.list. fold cls.
  cbn. rewrite H. cbn.
  destruct (data_of cls (many (IUser <$> friends))) as [e|d] eqn:Hd; cbn.
  - repeat split; intros resp [=].
  - repeat split. intros resp [= <-].
    destruct (data_of_many _ _ _ Hd) as (vs & -> & Hall).
    exists vs. repeat split. by apply Forall2_fmap_l in Hall.
Qed.

Lemma list_serializes_friends_witness :
  Outcome.returned
    (run InMemory.lib (FriendViewSet.list InMemory.view (Request.mk InMemory.alice ∅)) InMemory.w0)
  = inr (Response.ok
           (VList [VDict [("pk", VInt 2); ("username", VStr "bob");
                          ("email", VStr "bob@example.org")]])).
Proof.
  exact (proj1 (list_serializes_friends InMemory.lib InMemory.view
                  (Request.mk InMemory.alice ∅) InMemory.w0 InMemory.w0 [InMemory.bob]
                  eq_refl)).
Defined.

(** ** add_friend *)

(** C1: once the payload resolves to a user, the view makes exactly one
    library call, [Friend.objects.add_friend(request.user, to_user,
    message=request.data.get('message', ''))], with no call or test of its
    own in between, whoever the two users are; when that call returns a
    friendship request, the response is HTTP 201 with the request
    serialized by the configured friendship-request serializer. *)
Theorem add_friend_delegates {W : Type} (lib : library W) (self : FriendViewSet.t)
    (request : Request.t) (w w1 : W) (to_user : User.t) :
  let lookup :=
    get_object_or_404_User (FriendViewSet.user_data (Request.data request) false) in
  lib _ lookup w = (inr to_user, w1) →
  let message := dict_get (Request.data request) "message" (VStr "") in
  let add := Friend_add_friend (Request.user request) to_user message in
  let cls := FriendViewSet.friendshiprequest_serializer_class self in
  let o := run lib (FriendViewSet.add_friend self request) w in
  List.filter is_library_call (Outcome.trace o)
    = [Ev lookup (inr to_user); Ev add (lib _ add w1).1]
  ∧ ∀ friend_obj w2 d,
      lib _ add w1 = (inr friend_obj, w2) →
      data_of cls (one (IRequest friend_obj)) = inr d →
      Outcome.returned o = inr (Response.mk d status.HTTP_201_CREATED)
      ∧ Outcome.world o = w2
      ∧ Outcome.trace o
        = [Ev lookup (inr to_user); Ev add (inr friend_obj);
           Ev (serializer_data cls (one (IRequest friend_obj))) (inr d)].
Proof.
  intros lookup H message add cls o. subst lookup message add cls o.
  unfold FriendViewSet.add_friend, FriendViewSet.get_user_from_friend_data.
  cbn. rewrite H. cbn.
  destruct (lib _ (Friend_add_friend _ _ _) w1) as [[e|friend_obj] w2] eqn:Hadd; cbn.
  - split; [|by intros ? ? ? [=]].
    destruct e; reflexivity.
  - destruct (data_of _ (one (IRequest friend_obj))) as [e|d] eqn:Hd; cbn.
    + split; [|intros ? ? ? [= <- <-]; congruence].
      destruct e; reflexivity.
    + split; [reflexivity|].
      intros ? ? ? [= <- <-] Hd'. rewrite Hd in Hd'. injection Hd' as <-. done.
Qed.

Lemma add_friend_delegates_witness :
  Outcome.returned
    (run InMemory.lib
       (FriendViewSet.add_friend InMemory.view
          (Request.mk InMemory.bob {["username" := VStr "carol"]})) InMemory.w0)
  = inr (Response.mk
           (VDict [("id", VInt 8); ("from_user", VInt 2); ("to_user", VInt 3);
                   ("message", VStr "")])
           status.HTTP_201_CREATED).
Proof.
  refine (proj1 (proj2 (add_friend_delegates InMemory.lib InMemory.view
                          (Request.mk InMemory.bob {["username" := VStr "carol"]})
                          InMemory.w0 InMemory.w0 InMemory.carol eq_refl) _ _ _ eq_refl eq_refl)).
Defined.

(** ** Exceptions *)

Lemma propagating_perform {X : Type} (c : call X) : propagating (perform c).
Proof. split; [done|]. by intros x. Qed.

Lemma propagating_bind {A B : Type} (p : prog A) (f : A → prog B) :
  propagating p → (∀ a, propagating (f a)) → propagating (p ≫= f).
Proof.
  intros Hp Hf. induction p as [a|e|X c k IH]; cbn in *.
  - apply Hf.
  - done.
  - destruct Hp as [Hraise Hk]. split.
    + intros e. by rewrite Hraise.
    + intros x. by apply IH.
Qed.

Lemma propagating_run {W A : Type} (lib : library W) (p : prog A) (w : W) (ev : event) (e : exn) :
  propagating p →
  In ev (Outcome.trace (run lib p w)) →
  raised ev = Some e →
  Outcome.returned (run lib p w) = inl e.
Proof.
  revert w. induction p as [a|e'|X c k IH]; intros w Hp Hin Hev; cbn in *; try done.
  destruct Hp as [Hraise Hk]. destruct (interp lib c w) as [[e'|x] w'] eqn:Hc; cbn in *.
  - rewrite Hraise in Hin |- *. cbn in *. destruct Hin as [<-|[]].
    cbn in Hev. congruence.
  - destruct Hin as [<-|Hin]; [done|]. by apply IH.
Qed.

Ltac propagating :=
  repeat first
    [ exact I
    | simple apply @propagating_perform
    | simple apply @propagating_bind; [|intros ?]
    | match goal with
      | |- propagating (if ?b then _ else _) => destruct b
      | |- propagating (let '(_, _) := if ?b then _ else _ in _) => destruct b
      end ].

(** Every action other than [add_friend] handles nothing. *)
Lemma other_actions_propagating (self : FriendViewSet.t) (request : Request.t) (a : action) :
  a ≠ a_add_friend → propagating (action_handler a self request).
Proof.
  intros Ha. destruct a; try done; clear Ha; cbn -[mbind mret];
    unfold FriendViewSet.list, FriendViewSet.retrieve, FriendViewSet.requests,
      FriendViewSet.sent_requests, FriendViewSet.rejected_requests,
      FriendViewSet.remove_friend, FriendViewSet.accept_request,
      FriendViewSet.reject_request, FriendViewSet.get_user_from_friend_data;
    propagating.
Qed.

(** What [add_friend] makes of an exception. *)
Lemma add_friend_exceptions {W : Type} (lib : library W) (self : FriendViewSet.t)
    (request : Request.t) (w : W) (ev : event) (e : exn) :
  let o := run lib (FriendViewSet.add_friend self request) w in
  In ev (Outcome.trace o) →
  raised ev = Some e →
  Outcome.returned o = inl e
  ∨ caught_in_repository e = true
    ∧ Outcome.returned o
      = inr (Response.mk (VDict [("message", VStr (str e))]) status.HTTP_400_BAD_REQUEST).
Proof.
  unfold FriendViewSet.add_friend, FriendViewSet.get_user_from_friend_data. cbn.
  destruct (lib _ (get_object_or_404_User _) w) as [[e1|to_user] w1]; cbn.
  { intros [<-|[]] [= <-]. by left. }
  destruct (lib _ (Friend_add_friend _ _ _) w1) as [[e2|friend_obj] w2]; cbn.
  { destruct e2; cbn; intros [<-|[<-|[]]] [= <-]; auto. }
  destruct (data_of _ _) as [e3|d]; cbn.
  { destruct e3; cbn; intros [<-|[<-|[<-|[]]]] [= <-]; auto. }
  intros [<-|[<-|[<-|[]]]] [=].
Qed.

(** C2: the one [except] clause of the repository names
    [AlreadyExistsError] and [AlreadyFriendsError].  When
    [Friend.objects.add_friend] raises one of the two, the response is
    HTTP 400 with the exception's message in the body; and in every
    action, an exception raised by any call either leaves the action
    unchanged or is one of these two, turned into that HTTP 400 by
    [add_friend]. *)
Theorem only_two_exceptions_mapped {W : Type} (lib : library W) (self : FriendViewSet.t)
    (request : Request.t) (w : W) :
  (∀ e, caught_in_repository e = true
        ↔ (∃ msg, e = AlreadyExistsError msg) ∨ (∃ msg, e = AlreadyFriendsError msg))
  ∧ (∀ to_user w1 e w2,
       lib _ (get_object_or_404_User (FriendViewSet.user_data (Request.data request) false)) w
         = (inr to_user, w1) →
       lib _ (Friend_add_friend (Request.user request) to_user
                (dict_get (Request.data request) "message" (VStr ""))) w1
         = (inl e, w2) →
       caught_in_repository e = true →
       let o := run lib (FriendViewSet.add_friend self request) w in
       Outcome.returned o
         = inr (Response.mk (VDict [("message", VStr (str e))]) status.HTTP_400_BAD_REQUEST)
       ∧ Outcome.world o = w2)
  ∧ (∀ a ev e,
       let o := run lib (action_handler a self request) w in
       In ev (Outcome.trace o) →
       raised ev = Some e →
       Outcome.returned o = inl e
       ∨ a = a_add_friend
         ∧ caught_in_repository e = true
         ∧ Outcome.returned o
           = inr (Response.mk (VDict [("message", VStr (str e))])
                    status.HTTP_400_BAD_REQUEST)).
Proof.
  split; [|split].
  - intros e. split.
    + destruct e; cbn; try done; eauto.
    + by intros [[msg ->]|[msg ->]].
  - intros to_user w1 e w2 Hlookup Hadd He.
    unfold FriendViewSet.add_friend, FriendViewSet.get_user_from_friend_data.
    cbn. rewrite Hlookup. cbn. rewrite Hadd. cbn.
    by destruct e.
  - intros a ev e o Hin Hev. subst o.
    assert (a = a_add_friend ∨ a ≠ a_add_friend) as [->|Ha]
      by (destruct a; auto; by right).
    + destruct (add_friend_exceptions lib self request w ev e Hin Hev) as [?|[? ?]]; auto.
    + left. eapply propagating_run; [|done..]. by apply other_actions_propagating.
Qed.

Lemma only_two_exceptions_mapped_witness :
  Outcome.returned
    (run InMemory.lib
       (FriendViewSet.add_friend InMemory.view
          (Request.mk InMemory.bob {["username" := VStr "alice"]})) InMemory.w0)
  = inr (Response.mk (VDict [("message", VStr "Users are already friends")])
           status.HTTP_400_BAD_REQUEST).
Proof.
  exact (proj1 (proj1 (proj2 (only_two_exceptions_mapped InMemory.lib InMemory.view
                                (Request.mk InMemory.bob {["username" := VStr "alice"]})
                                InMemory.w0))
                  InMemory.alice InMemory.w0 (AlreadyFriendsError "Users are already friends")
                  InMemory.w0 eq_refl eq_refl eq_refl)).
Defined.

(** ** retrieve *)

(** C3 as stated fails: before anything else the view fetches
    [Friend.objects.friends(user=request.user)] for [self.queryset].  With
    that query out of order, a pk that matches a user who is a friend of
    the requesting user gets neither the serialized user nor the HTTP 400:
    the exception leaves the view.  And with the library in order, the
    calls into it are the friends query as well as [are_friends], not
    [are_friends] alone. *)
Lemma retrieve_fetches_friends_first :
  InMemory.lib_friends_unavailable _ (get_object_or_404_User {["pk" := VInt 2]}) InMemory.w0
    = (inr InMemory.bob, InMemory.w0)
  ∧ InMemory.lib_friends_unavailable _ (Friend_are_friends InMemory.alice InMemory.bob)
      InMemory.w0
    = (inr (VBool true), InMemory.w0)
  ∧ run InMemory.lib_friends_unavailable
      (FriendViewSet.retrieve InMemory.view (Request.mk InMemory.alice ∅) (VInt 2)) InMemory.w0
    = Outcome.mk (inl (OtherError "OperationalError" "could not connect to server"))
        InMemory.w0
        [Ev (Friend_friends InMemory.alice)
            (inl (OtherError "OperationalError" "could not connect to server"))]
  ∧ List.filter is_library_call
      (Outcome.trace
         (run InMemory.lib
            (FriendViewSet.retrieve InMemory.view (Request.mk InMemory.alice ∅) (VInt 2))
            InMemory.w0))
    = [Ev (Friend_friends InMemory.alice) (inr [InMemory.bob]);
       Ev (get_object_or_404_User {["pk" := VInt 2]}) (inr InMemory.bob);
       Ev (Friend_are_friends InMemory.alice InMemory.bob) (inr (VBool true))].
Proof. split_and!; reflexivity. Qed.

(** C3, amended: when the friends query that the view makes first for
    [self.queryset] has returned and the pk matches a user, the response
    is decided by the one call
    [Friend.objects.are_friends(request.user, requested_user)]: a truthy
    answer gives the requested user serialized by the configured user
    serializer, anything else gives HTTP 400 with "Friend relationship
    not found for user.".  The friends list plays no part in the
    response, and the calls into the library are that query, the lookup
    and the single [are_friends]. *)
Theorem retrieve_asks_are_friends {W : Type} (lib : library W) (self : FriendViewSet.t)
    (request : Request.t) (pk : value) (w w1 w2 w3 : W)
    (friends : list User.t) (requested_user : User.t) (are : value) :
  lib _ (Friend_friends (Request.user request)) w = (inr friends, w1) →
  lib _ (get_object_or_404_User {["pk" := pk]}) w1 = (inr requested_user, w2) →
  lib _ (Friend_are_friends (Request.user request) requested_user) w2 = (inr are, w3) →
  let cls := FriendViewSet.serializer_class self in
  let o := run lib (FriendViewSet.retrieve self request pk) w in
  (truthy are = true →
     Outcome.returned o
       = result_bind (data_of cls (one (IUser requested_user))) (λ d, inr (Response.ok d)))
  ∧ (truthy are = false →
       Outcome.returned o
         = inr (Response.mk
                  (VDict [("message", VStr "Friend relationship not found for user.")])
                  status.HTTP_400_BAD_REQUEST))
  ∧ (∀ resp, Outcome.returned o = inr resp →
       (Response.status_code resp = status.HTTP_200_OK ↔ truthy are = true))
  ∧ Outcome.world o = w3
  ∧ List.filter is_library_call (Outcome.trace o)
    = [Ev (Friend_friends (Request.user request)) (inr friends);
       Ev (get_object_or_404_User {["pk" := pk]}) (inr requested_user);
       Ev (Friend_are_friends (Request.user request) requested_user) (inr are)].
Proof.
  intros H1 H2 H3 cls o. subst cls o. unfold FriendViewSet.retrieve.
  cbn. rewrite H1. cbn. rewrite H2. cbn. rewrite H3. cbn.
  destruct (truthy are); cbn.
  - destruct (data_of _ _) as [e|d]; cbn.
    + split_and!; try done.
    + split_and!; try done. by intros resp [= <-].
  - split_and!; try done. by intros resp [= <-].
Qed.

Lemma retrieve_asks_are_friends_witness :
  Outcome.returned
    (run InMemory.lib
       (FriendViewSet.retrieve InMemory.view (Request.mk InMemory.alice ∅) (VInt 3))
       InMemory.w0)
  = inr (Response.mk (VDict [("message", VStr "Friend relationship not found for user.")])
           status.HTTP_400_BAD_REQUEST).
Proof.
  exact (proj1 (proj2 (retrieve_asks_are_friends InMemory.lib InMemory.view
                         (Request.mk InMemory.alice ∅) (VInt 3)
                         InMemory.w0 InMemory.w0 InMemory.w0 InMemory.w0
                         [InMemory.bob] InMemory.carol (VBool false)
                         eq_refl eq_refl eq_refl)) eq_refl).
Defined.

(** ** remove_friend *)

(** C6: when the payload resolves to a user, the response is HTTP 204
    with "Friend deleted." if
    [Friend.objects.remove_friend(request.user, to_user)] returns a truthy
    value, and HTTP 400 with "Friend not found." if it returns any other
    value. *)
Theorem remove_friend_status {W : Type} (lib : library W) (self : FriendViewSet.t)
    (request : Request.t) (w w1 w2 : W) (to_user : User.t) (removed : value) :
  lib _ (get_object_or_404_User (FriendViewSet.user_data (Request.data request) true)) w
    = (inr to_user, w1) →
  lib _ (Friend_remove_friend (Request.user request) to_user) w1 = (inr removed, w2) →
  let o := run lib (FriendViewSet.remove_friend self request) w in
  Outcome.returned o
    = inr (if truthy removed
           then Response.mk (VDict [("message", VStr "Friend deleted.")])
                  status.HTTP_204_NO_CONTENT
           else Response.mk (VDict [("message", VStr "Friend not found.")])
                  status.HTTP_400_BAD_REQUEST)
  ∧ (∀ resp, Outcome.returned o = inr resp →
       (Response.status_code resp = status.HTTP_204_NO_CONTENT ↔ truthy removed = true))
  ∧ Outcome.world o = w2.
Proof.
  intros H1 H2 o. subst o.
  unfold FriendViewSet.remove_friend, FriendViewSet.get_user_from_friend_data.
  cbn. rewrite H1. cbn. rewrite H2. cbn.
  destruct (truthy removed); cbn; split_and!; try done.
  all: by intros resp [= <-].
Qed.

Lemma remove_friend_status_witness :
  Outcome.returned
    (run InMemory.lib
       (FriendViewSet.remove_friend InMemory.view
          (Request.mk InMemory.bob {["id" := VInt 1]})) InMemory.w0)
  = inr (Response.mk (VDict [("message", VStr "Friend deleted.")]) status.HTTP_204_NO_CONTENT).
Proof.
  exact (proj1 (remove_friend_status InMemory.lib InMemory.view
                  (Request.mk InMemory.bob {["id" := VInt 1]})
                  InMemory.w0 InMemory.w0
                  (InMemory.mk [InMemory.alice; InMemory.bob; InMemory.carol] []
                     [InMemory.carol_to_alice] 8 "2024-05-02T12:00:00Z")
                  InMemory.alice (VBool true) eq_refl eq_refl)).
Defined.

(** ** accept_request and reject_request *)

(** C8: when the payload's id matches a friendship request, a request
    addressed to another user is answered by HTTP 400 with "Request for
    current user not found.", with no call after the lookup and the state
    as the lookup left it; a request addressed to the requesting user has
    [accept()] (respectively [reject()]) called on it, and the response is
    HTTP 201 once that call returns. *)
Theorem accept_reject_only_for_recipient {W : Type} (lib : library W) (self : FriendViewSet.t)
    (request : Request.t) (w w1 : W) (friendship_request : FriendshipRequest.t) :
  let lookup :=
    get_object_or_404_FriendshipRequest (dict_get (Request.data request) "id" VNone) in
  lib _ lookup w = (inr friendship_request, w1) →
  let mine := User.eqb (FriendshipRequest.to_user friendship_request) (Request.user request) in
  let not_found :=
    Response.mk (VDict [("message", VStr "Request for current user not found.")])
      status.HTTP_400_BAD_REQUEST in
  let oa := run lib (FriendViewSet.accept_request self request) w in
  let or := run lib (FriendViewSet.reject_request self request) w in
  (mine = false →
     oa = Outcome.mk (inr not_found) w1 [Ev lookup (inr friendship_request)]
     ∧ or = Outcome.mk (inr not_found) w1 [Ev lookup (inr friendship_request)])
  ∧ (mine = true →
       Outcome.trace oa
         = [Ev lookup (inr friendship_request);
            Ev (FriendshipRequest_accept friendship_request)
               (lib _ (FriendshipRequest_accept friendship_request) w1).1]
       ∧ Outcome.trace or
         = [Ev lookup (inr friendship_request);
            Ev (FriendshipRequest_reject friendship_request)
               (lib _ (FriendshipRequest_reject friendship_request) w1).1]
       ∧ (∀ v w2, lib _ (FriendshipRequest_accept friendship_request) w1 = (inr v, w2) →
            Outcome.returned oa
              = inr (Response.mk
                       (VDict [("message", VStr "Request accepted, user added to friends.")])
                       status.HTTP_201_CREATED)
            ∧ Outcome.world oa = w2)
       ∧ (∀ v w2, lib _ (FriendshipRequest_reject friendship_request) w1 = (inr v, w2) →
            Outcome.returned or
              = inr (Response.mk
                       (VDict [("message", VStr "Request rejected, user NOT added to friends.")])
                       status.HTTP_201_CREATED)
            ∧ Outcome.world or = w2)).
Proof.
  intros lookup H mine not_found oa or. subst lookup mine not_found oa or.
  unfold FriendViewSet.accept_request, FriendViewSet.reject_request.
  cbn. rewrite H. cbn.
  destruct (User.eqb _ _); cbn; split; try done; intros _.
  destruct (lib _ (FriendshipRequest_accept _) w1) as [[e|v] w2];
    destruct (lib _ (FriendshipRequest_reject _) w1) as [[e'|v'] w2']; cbn;
    split_and!; try done.
  all: by intros ? ? [= <- <-].
Qed.

Lemma accept_reject_only_for_recipient_witness :
  run InMemory.lib
    (FriendViewSet.accept_request InMemory.view (Request.mk InMemory.bob {["id" := VInt 7]}))
    InMemory.w0
  = Outcome.mk
      (inr (Response.mk (VDict [("message", VStr "Request for current user not found.")])
              status.HTTP_400_BAD_REQUEST))
      InMemory.w0
      [Ev (get_object_or_404_FriendshipRequest (VInt 7)) (inr InMemory.carol_to_alice)].
Proof.
  exact (proj1 (proj1 (accept_reject_only_for_recipient InMemory.lib InMemory.view
                         (Request.mk InMemory.bob {["id" := VInt 7]})
                         InMemory.w0 InMemory.w0 InMemory.carol_to_alice eq_refl) eq_refl)).
Defined.

(** ** Permissions *)

Lemma check_permissions_trace {W : Type} (lib : library W) (permission_classes : list string)
    (request : Request.t) (w : W) :
  let oc := run lib (check_permissions permission_classes request) w in
  Forall (λ ev, is_permission_check ev = true) (Outcome.trace oc)
  ∧ ((∃ e, Outcome.returned oc = inl e) ↔ existsb denied (Outcome.trace oc) = true).
Proof.
  revert w. induction permission_classes as [|permission rest IH]; intros w; cbn.
  - split; [constructor|]. split; [by intros [e [=]]|done].
  - destruct (lib _ (has_permission permission request) w) as [[e|granted] w1]; cbn.
    + split; [by repeat constructor|]. split; [done|eauto].
    + destruct (truthy granted) eqn:Hg.
      * destruct (IH w1) as [Hall Hiff]. cbn in *.
        split; [by constructor|]. done.
      * cbn. split; [by repeat constructor|]. split; [done|eauto].
Qed.

(** C7: the configured permission classes are asked before the action
    runs.  A request that a permission class does not grant ends there:
    the action is not run, so the trace holds the permission checks and
    neither a library call nor a serialization; a request that passes
    runs the action after the checks. *)
Theorem permissions_checked_first {W : Type} (lib : library W) (self : FriendViewSet.t)
    (handler : FriendViewSet.t → Request.t → prog Response.t) (request : Request.t) (w : W) :
  let oc := run lib (check_permissions (FriendViewSet.permission_classes self) request) w in
  let o := run lib (dispatch self handler request) w in
  Forall (λ ev, is_permission_check ev = true) (Outcome.trace oc)
  ∧ (existsb denied (Outcome.trace oc) = true →
       (∃ e, Outcome.returned o = inl e)
       ∧ Outcome.world o = Outcome.world oc
       ∧ Outcome.trace o = Outcome.trace oc
       ∧ List.filter is_library_call (Outcome.trace o) = []
       ∧ List.filter is_serialization (Outcome.trace o) = [])
  ∧ (existsb denied (Outcome.trace oc) = false →
       let oh := run lib (handler self request) (Outcome.world oc) in
       Outcome.returned o = Outcome.returned oh
       ∧ Outcome.world o = Outcome.world oh
       ∧ Outcome.trace o = Outcome.trace oc ++ Outcome.trace oh).
Proof.
  intros oc o.
  destruct (check_permissions_trace lib (FriendViewSet.permission_classes self) request w)
    as [Hall Hiff]. fold oc in Hall, Hiff.
  assert (Ho : o = match Outcome.returned oc with
                   | inl e => Outcome.mk (inl e) (Outcome.world oc) (Outcome.trace oc)
                   | inr _ =>
                       let oh := run lib (handler self request) (Outcome.world oc) in
                       Outcome.mk (Outcome.returned oh) (Outcome.world oh)
                         (Outcome.trace oc ++ Outcome.trace oh)
                   end).
  { subst o oc. unfold dispatch. rewrite run_bind. cbn zeta.
    by destruct (Outcome.returned _). }
  split; [done|]. split.
  - intros Hd. apply Hiff in Hd as [e He]. rewrite Ho, He. cbn.
    split_and!; try done; [by eexists|..].
    + clear -Hall. induction Hall as [|ev l Hev _ IH]; [done|].
      cbn. unfold is_library_call at 1. by rewrite Hev.
    + clear -Hall. induction Hall as [|ev l Hev _ IH]; [done|].
      cbn. destruct ev as [X c r]. by destruct c.
  - intros Hd. destruct (Outcome.returned oc) as [e|[]] eqn:He.
    + assert (existsb denied (Outcome.trace oc) = true) by (apply Hiff; eauto). congruence.
    + by rewrite Ho.
Qed.

Lemma permissions_checked_first_witness :
  Outcome.trace
    (run InMemory.lib
       (dispatch InMemory.known_users_view FriendViewSet.list (Request.mk InMemory.stranger ∅))
       InMemory.w0)
  = [Ev (has_permission "project.permissions.IsKnownUser"
           (Request.mk InMemory.stranger ∅))
        (inr (VBool false))].
Proof.
  exact (proj1 (proj2 (proj2 (proj1 (proj2
           (permissions_checked_first InMemory.lib InMemory.known_users_view FriendViewSet.list
              (Request.mk InMemory.stranger ∅) InMemory.w0)) eq_refl)))).
Defined.

(** ** Looking up the target user *)

Lemma user_data_without_id (d1 d2 : gmap string value) :
  delete "id" d1 = delete "id" d2 →
  FriendViewSet.user_data d1 false = FriendViewSet.user_data d2 false.
Proof.
  intros H.
  assert (Hk : ∀ k : string, k ≠ "id" → d1 !! k = d2 !! k).
  { intros k Hk. by rewrite <- (lookup_delete_ne d1 "id" k), <- (lookup_delete_ne d2 "id" k), H. }
  unfold FriendViewSet.user_data.
  by rewrite (Hk "username"), (Hk "to_user"), (Hk "email").
Qed.

Lemma user_data_with_id (d : gmap string value) :
  FriendViewSet.user_data d true !! "id" = d !! "id".
Proof.
  unfold FriendViewSet.user_data.
  destruct (d !! "username"), (d !! "to_user"), (d !! "email"), (d !! "id");
    by simplify_map_eq.
Qed.

(** C9: [add_friend] never looks its target up by id.  Two payloads that
    differ only in the presence or value of an 'id' key give the same
    lookup, hence the same resolved user or the same 404, and the whole
    action runs alike; the lookup that opens [add_friend] has no 'id'
    filter.  [remove_friend] opens with a lookup whose 'id' filter is the
    payload's 'id', and two payloads that differ only there can have it
    remove one user and not find the other. *)
Theorem add_friend_ignores_id {W : Type} (lib : library W) (self : FriendViewSet.t)
    (user : User.t) (d1 d2 : gmap string value) (w : W) :
  delete "id" d1 = delete "id" d2 →
  run lib (FriendViewSet.get_user_from_friend_data d1 false) w
    = run lib (FriendViewSet.get_user_from_friend_data d2 false) w
  ∧ run lib (FriendViewSet.add_friend self (Request.mk user d1)) w
    = run lib (FriendViewSet.add_friend self (Request.mk user d2)) w
  ∧ FriendViewSet.user_data d1 true !! "id" = d1 !! "id"
  ∧ FriendViewSet.user_data d2 true !! "id" = d2 !! "id"
  ∧ (∃ kwargs,
       first_lookup
         (Outcome.trace (run lib (FriendViewSet.add_friend self (Request.mk user d1)) w))
       = Some kwargs
       ∧ kwargs !! "id" = None)
  ∧ (∀ d, ∃ kwargs,
       first_lookup
         (Outcome.trace (run lib (FriendViewSet.remove_friend self (Request.mk user d)) w))
       = Some kwargs
       ∧ kwargs !! "id" = d !! "id")
  ∧ ∃ (d3 d4 : gmap string value),
      delete "id" d3 = delete "id" d4
      ∧ run InMemory.lib
          (FriendViewSet.add_friend InMemory.view (Request.mk InMemory.bob d3)) InMemory.w0
        = run InMemory.lib
            (FriendViewSet.add_friend InMemory.view (Request.mk InMemory.bob d4)) InMemory.w0
      ∧ Outcome.returned
          (run InMemory.lib
             (FriendViewSet.remove_friend InMemory.view (Request.mk InMemory.bob d3))
             InMemory.w0)
        = inr (Response.mk (VDict [("message", VStr "Friend deleted.")])
                 status.HTTP_204_NO_CONTENT)
      ∧ Outcome.returned
          (run InMemory.lib
             (FriendViewSet.remove_friend InMemory.view (Request.mk InMemory.bob d4))
             InMemory.w0)
        = inr (Response.mk (VDict [("message", VStr "Friend not found.")])
                 status.HTTP_400_BAD_REQUEST).
Proof.
  intros H.
  assert (Hmsg : dict_get d1 "message" (VStr "") = dict_get d2 "message" (VStr "")).
  { unfold dict_get.
    by rewrite <- (lookup_delete_ne d1 "id" "message"),
               <- (lookup_delete_ne d2 "id" "message"), H. }
  split_and!.
  - unfold FriendViewSet.get_user_from_friend_data. by rewrite (user_data_without_id d1 d2 H).
  - unfold FriendViewSet.add_friend, FriendViewSet.get_user_from_friend_data. cbn.
    by rewrite (user_data_without_id d1 d2 H), Hmsg.
  - apply user_data_with_id.
  - apply user_data_with_id.
  - exists (FriendViewSet.user_data d1 false). split; [reflexivity|].
    unfold FriendViewSet.user_data.
    destruct (d1 !! "username"), (d1 !! "to_user"), (d1 !! "email"); by simplify_map_eq.
  - intros d. exists (FriendViewSet.user_data d true). split; [reflexivity|].
    apply user_data_with_id.
  - exists {["id" := VInt 1]}, {["id" := VInt 3]}. split_and!.
    + by rewrite !delete_singleton_eq.
    + reflexivity.
    + reflexivity.
    + reflexivity.
Qed.

Lemma add_friend_ignores_id_witness :
  run InMemory.lib
    (FriendViewSet.add_friend InMemory.view
       (Request.mk InMemory.bob {["username" := VStr "carol"]})) InMemory.w0
  = run InMemory.lib
      (FriendViewSet.add_friend InMemory.view
         (Request.mk InMemory.bob (<["id" := VInt 1]> {["username" := VStr "carol"]})))
      InMemory.w0.
Proof.
  refine (proj1 (proj2 (add_friend_ignores_id InMemory.lib InMemory.view InMemory.bob
                          {["username" := VStr "carol"]}
                          (<["id" := VInt 1]> {["username" := VStr "carol"]})
                          InMemory.w0 _))).
  vm_compute. reflexivity.
Defined.

(** ** The user serializer *)

Lemma UserSerializer_representation (u : User.t) :
  to_representation serializers.UserSerializer (IUser u)
  = inr (VDict [("pk", VInt (User.pk u)); ("username", VStr (User.username u));
                ("email", VStr (User.email u))]).
Proof. reflexivity. Qed.

(** C4 as stated fails: the views serialize users with whatever serializer
    the settings name.  Under a settings dict whose USER_SERIALIZER is a
    serializer with the single field username, the user in a list response
    carries that field alone, not pk, username and email. *)
Lemma configured_serializer_changes_fields :
  Outcome.returned
    (run InMemory.lib
       (FriendViewSet.list InMemory.custom_view (Request.mk InMemory.alice ∅)) InMemory.w0)
  = inr (Response.ok (VList [VDict [("username", VStr "bob")]]))
  ∧ dict_keys (VDict [("username", VStr "bob")]) = Some ["username"]%string
  ∧ dict_keys (VDict [("username", VStr "bob")]) ≠ Some serializers.Meta.fields.
Proof. split_and!; [reflexivity..|]. intros [=]. Qed.

(** C4, amended: [UserSerializer] exposes exactly the fields pk, username
    and email of the user model, so every user it serializes carries
    exactly this field set; a user in a list or retrieve response carries
    it when the viewset's configured user serializer is [UserSerializer]. *)
Theorem UserSerializer_exposes_three_fields {W : Type} (lib : library W)
    (self : FriendViewSet.t) (request : Request.t) (w : W) :
  serializers.Meta.fields = ["pk"; "username"; "email"]%string
  ∧ (∀ u, ∃ d, to_representation serializers.UserSerializer (IUser u) = inr d
               ∧ dict_keys d = Some ["pk"; "username"; "email"]%string)
  ∧ (FriendViewSet.serializer_class self = serializers.UserSerializer →
       (∀ resp,
          Outcome.returned (run lib (FriendViewSet.list self request) w) = inr resp →
          ∃ items, Response.data resp = VList items
                   ∧ Forall (λ item, dict_keys item = Some ["pk"; "username"; "email"]%string)
                       items)
       ∧ (∀ pk resp,
            Outcome.returned (run lib (FriendViewSet.retrieve self request pk) w) = inr resp →
            Response.status_code resp = status.HTTP_200_OK →
            dict_keys (Response.data resp) = Some ["pk"; "username"; "email"]%string)).
Proof.
  split_and!.
  - reflexivity.
  - intros u. eexists. split; [apply UserSerializer_representation|reflexivity].
  - intros Hcls. split.
    + intros resp. unfold FriendViewSet.list. rewrite Hcls. cbn.
      destruct (lib _ (Friend_friends _) w) as [[e|friends] w1]; cbn; [done|].
      destruct (data_of _ _) as [e|d] eqn:Hd; cbn; [done|].
      intros [= <-]. destruct (data_of_many _ _ _ Hd) as (items & -> & Hall).
      exists items. split; [done|].
      apply Forall2_fmap_l in Hall. clear Hd.
      induction Hall as [|u item us items Hu _ IH]; constructor; [|done].
      pose proof (eq_trans (eq_sym Hu) (UserSerializer_representation u)) as Hitem.
      by injection Hitem as ->.
    + intros pk resp. unfold FriendViewSet.retrieve. rewrite Hcls. cbn.
      destruct (lib _ (Friend_friends _) w) as [[e|friends] w1]; cbn; [done|].
      destruct (lib _ (get_object_or_404_User _) w1) as [[e|requested_user] w2]; cbn; [done|].
      destruct (lib _ (Friend_are_friends _ _) w2) as [[e|are] w3]; cbn; [done|].
      destruct (truthy are); cbn.
      * unfold data_of. cbn. by intros [= <-].
      * by intros [= <-].
Qed.

Lemma UserSerializer_exposes_three_fields_witness :
  dict_keys
    (VDict [("pk", VInt 2); ("username", VStr "bob"); ("email", VStr "bob@example.org")])
  = Some ["pk"; "username"; "email"]%string.
Proof.
  exact (proj2 (proj2 (proj2 (UserSerializer_exposes_three_fields InMemory.lib InMemory.view
                                (Request.mk InMemory.alice ∅) InMemory.w0)) eq_refl)
           (VInt 2)
           (Response.ok (VDict [("pk", VInt 2); ("username", VStr "bob");
                                ("email", VStr "bob@example.org")]))
           eq_refl eq_refl).
Defined.

(** * Further properties of the views *)

(** Case analysis on everything a run depends on: what each call returns
    or raises, and the tests the view makes on it. *)
Ltac run_cases lib :=
  repeat (cbn;
          match goal with
          | |- context [lib ?X ?c ?w] => destruct (lib X c w) as [[?|?] ?]
          | |- context [truthy ?v] => destruct (truthy v)
          | |- context [User.eqb ?a ?b] => destruct (User.eqb a b) eqn:?
          | |- context [data_of ?c ?a] => destruct (data_of c a)
          | |- context [FriendViewSet.add_friend_except ?e] => destruct e
          end);
  cbn.

(** ** The lookup dict *)

Lemma user_data_lookup_eq (d : gmap string value) (allow_id : bool) (k : string) :
  FriendViewSet.user_data d allow_id !! k
  = if decide (k = "username") then
      match d !! "to_user" with
      | Some v => Some v
      | None => d !! "username"
      end
    else if decide (k = "email") then d !! "email"
    else if decide (k = "id") then (if allow_id then d !! "id" else None)
    else None.
Proof.
  unfold FriendViewSet.user_data.
  destruct (d !! "username"), (d !! "to_user"), (d !! "email"), allow_id, (d !! "id");
    repeat case_decide; by simplify_map_eq.
Qed.

(** The lookup that [get_user_from_friend_data] hands to
    [get_object_or_404] filters on username, email and, when allowed, id,
    and on nothing else in the payload; 'to_user' is an alias of
    'username' that wins when both are sent. *)
Theorem user_data_lookup (d : gmap string value) (allow_id : bool) :
  (∀ v, d !! "to_user" = Some v → FriendViewSet.user_data d allow_id !! "username" = Some v)
  ∧ (d !! "to_user" = None →
       FriendViewSet.user_data d allow_id !! "username" = d !! "username")
  ∧ FriendViewSet.user_data d allow_id !! "email" = d !! "email"
  ∧ FriendViewSet.user_data d allow_id !! "id" = (if allow_id then d !! "id" else None)
  ∧ (∀ k : string, k ∉ ["username"; "email"; "id"]%string →
       FriendViewSet.user_data d allow_id !! k = None).
Proof.
  split_and!.
  - intros v H. by rewrite user_data_lookup_eq, H.
  - intros H. by rewrite user_data_lookup_eq, H.
  - by rewrite user_data_lookup_eq.
  - by rewrite user_data_lookup_eq.
  - intros k Hk. rewrite user_data_lookup_eq.
    repeat case_decide; try done; subst; set_solver.
Qed.

Lemma user_data_lookup_witness :
  FriendViewSet.user_data
    (<["to_user" := VStr "carol"]> {["username" := VStr "bob"]}) false !! "username"
  = Some (VStr "carol").
Proof.
  exact (proj1 (user_data_lookup
                  (<["to_user" := VStr "carol"]> {["username" := VStr "bob"]}) false)
           (VStr "carol") eq_refl).
Defined.

(** A payload without any of the keys the lookup reads gives the empty
    lookup, a query on the user model with no filter at all, and only
    such a payload does; for [add_friend] a payload that carries just an
    'id' is one of them. *)
Theorem user_data_empty (d : gmap string value) (allow_id : bool) :
  FriendViewSet.user_data d allow_id = ∅
  ↔ d !! "username" = None ∧ d !! "to_user" = None ∧ d !! "email" = None
    ∧ (allow_id = true → d !! "id" = None).
Proof.
  split.
  - intros H.
    pose proof (user_data_lookup_eq d allow_id "username") as Hu.
    pose proof (user_data_lookup_eq d allow_id "email") as He.
    pose proof (user_data_lookup_eq d allow_id "id") as Hi.
    rewrite H, lookup_empty in Hu, He, Hi.
    repeat case_decide; try done.
    destruct (d !! "to_user"); [done|]. split_and!; try done.
    intros ->. done.
  - intros (Hu & Ht & He & Hi). apply map_eq. intros k.
    rewrite user_data_lookup_eq, lookup_empty, Hu, Ht, He.
    repeat case_decide; try done.
    destruct allow_id; [by apply Hi|done].
Qed.

Lemma user_data_empty_witness :
  FriendViewSet.user_data {["id" := VInt 1]} false = ∅.
Proof.
  apply (proj2 (user_data_empty {["id" := VInt 1]} false)).
  split_and!; [reflexivity..|]. intros H. discriminate H.
Defined.

(** ** What an action depends on *)

Lemma user_data_agree (d1 d2 : gmap string value) (allow_id : bool) :
  d1 !! "username" = d2 !! "username" →
  d1 !! "to_user" = d2 !! "to_user" →
  d1 !! "email" = d2 !! "email" →
  (allow_id = true → d1 !! "id" = d2 !! "id") →
  FriendViewSet.user_data d1 allow_id = FriendViewSet.user_data d2 allow_id.
Proof.
  intros Hu Ht He Hi. apply map_eq. intros k. rewrite !user_data_lookup_eq, Hu, Ht, He.
  destruct allow_id; [by rewrite Hi|done].
Qed.

(** An action is the same program for two requests of the same user
    whose payloads agree on the keys the action reads, under two viewset
    configurations that agree on the serializer the action uses: no other
    payload key, and neither the other serializer nor the permission
    classes, can change what the action does.  The GET actions read no
    payload key; [remove_friend], [accept_request] and [reject_request]
    use no serializer. *)
Theorem action_footprint (a : action) (self1 self2 : FriendViewSet.t) (user : User.t)
    (d1 d2 : gmap string value) :
  (∀ k, k ∈ payload_keys a → d1 !! k = d2 !! k) →
  serializer_used a self1 = serializer_used a self2 →
  action_handler a self1 (Request.mk user d1) = action_handler a self2 (Request.mk user d2).
Proof.
  intros Hk Hs.
  assert (Hin : ∀ k, k ∈ payload_keys a → d1 !! k = d2 !! k) by done.
  destruct a; cbn in Hs, Hin; try injection Hs as Hs.
  - unfold action_handler, FriendViewSet.list. cbn. by rewrite Hs.
  - unfold action_handler, FriendViewSet.retrieve. cbn. by rewrite Hs.
  - unfold action_handler, FriendViewSet.requests. cbn. by rewrite Hs.
  - unfold action_handler, FriendViewSet.sent_requests. cbn. by rewrite Hs.
  - unfold action_handler, FriendViewSet.rejected_requests. cbn. by rewrite Hs.
  - unfold action_handler, FriendViewSet.add_friend, FriendViewSet.get_user_from_friend_data,
      dict_get. cbn.
    rewrite Hs, (Hin "message") by set_solver.
    rewrite (user_data_agree d1 d2 false); [done|try (apply Hin; set_solver)..]. done.
  - unfold action_handler, FriendViewSet.remove_friend, FriendViewSet.get_user_from_friend_data.
    cbn. rewrite (user_data_agree d1 d2 true); [done|intros; apply Hin; set_solver..].
  - unfold action_handler, FriendViewSet.accept_request, dict_get. cbn.
    by rewrite (Hin "id") by set_solver.
  - unfold action_handler, FriendViewSet.reject_request, dict_get. cbn.
    by rewrite (Hin "id") by set_solver.
Qed.

Lemma action_footprint_witness :
  action_handler a_accept_request InMemory.view
    (Request.mk InMemory.alice {["id" := VInt 7]})
  = action_handler a_accept_request InMemory.custom_view
      (Request.mk InMemory.alice (<["username" := VStr "bob"]> {["id" := VInt 7]})).
Proof.
  apply (action_footprint a_accept_request).
  - intros k Hk. apply list_elem_of_singleton in Hk. rewrite Hk. reflexivity.
  - reflexivity.
Defined.

(** ** Lookups that fail *)

(** When the lookup of the target user ([add_friend], [remove_friend]) or
    of the friendship request ([accept_request], [reject_request]) raises,
    Http404 or anything else, the action ends there: the exception leaves
    the view as it is, also one of the two classes that [add_friend]
    catches further down, and the lookup is the only call made. *)
Theorem failed_lookup_ends_action {W : Type} (lib : library W) (self : FriendViewSet.t)
    (request : Request.t) (w w1 : W) (e : exn) :
  let data := Request.data request in
  (∀ allow_id,
     lib _ (get_object_or_404_User (FriendViewSet.user_data data allow_id)) w = (inl e, w1) →
     run lib (if allow_id then FriendViewSet.remove_friend self request
              else FriendViewSet.add_friend self request) w
     = Outcome.mk (inl e) w1
         [Ev (get_object_or_404_User (FriendViewSet.user_data data allow_id)) (inl e)])
  ∧ (lib _ (get_object_or_404_FriendshipRequest (dict_get data "id" VNone)) w = (inl e, w1) →
     run lib (FriendViewSet.accept_request self request) w
     = Outcome.mk (inl e) w1
         [Ev (get_object_or_404_FriendshipRequest (dict_get data "id" VNone)) (inl e)]
     ∧ run lib (FriendViewSet.reject_request self request) w
       = Outcome.mk (inl e) w1
           [Ev (get_object_or_404_FriendshipRequest (dict_get data "id" VNone)) (inl e)]).
Proof.
  intros data. subst data. split.
  - intros [] H;
      unfold FriendViewSet.remove_friend, FriendViewSet.add_friend,
        FriendViewSet.get_user_from_friend_data; cbn; by rewrite H.
  - intros H. unfold FriendViewSet.accept_request, FriendViewSet.reject_request.
    cbn. by rewrite H.
Qed.

Lemma failed_lookup_ends_action_witness :
  run InMemory.lib
    (FriendViewSet.add_friend InMemory.view
       (Request.mk InMemory.bob {["username" := VStr "nobody"]})) InMemory.w0
  = Outcome.mk (inl Http404) InMemory.w0
      [Ev (get_object_or_404_User
             (FriendViewSet.user_data {["username" := VStr "nobody"]} false)) (inl Http404)].
Proof.
  exact (proj1 (failed_lookup_ends_action InMemory.lib InMemory.view
                  (Request.mk InMemory.bob {["username" := VStr "nobody"]})
                  InMemory.w0 InMemory.w0 Http404) false eq_refl).
Defined.

(** ** The scope of the try block *)

(** The [try] of [add_friend] also covers the serialization of the new
    friendship request.  When the library has created the request and the
    serializer then raises, the state is the one with the request in it,
    whatever the client is told: HTTP 400 with the exception's message
    for the two caught classes, the exception itself otherwise. *)
Theorem add_friend_serializer_raises {W : Type} (lib : library W) (self : FriendViewSet.t)
    (request : Request.t) (w w1 w2 : W) (to_user : User.t)
    (friend_obj : FriendshipRequest.t) (e : exn) :
  lib _ (get_object_or_404_User (FriendViewSet.user_data (Request.data request) false)) w
    = (inr to_user, w1) →
  lib _ (Friend_add_friend (Request.user request) to_user
           (dict_get (Request.data request) "message" (VStr ""))) w1
    = (inr friend_obj, w2) →
  data_of (FriendViewSet.friendshiprequest_serializer_class self) (one (IRequest friend_obj))
    = inl e →
  let o := run lib (FriendViewSet.add_friend self request) w in
  Outcome.world o = w2
  ∧ Outcome.returned o
    = if caught_in_repository e
      then inr (Response.mk (VDict [("message", VStr (str e))]) status.HTTP_400_BAD_REQUEST)
      else inl e.
Proof.
  intros H1 H2 H3 o. subst o.
  unfold FriendViewSet.add_friend, FriendViewSet.get_user_from_friend_data.
  cbn. rewrite H1. cbn. rewrite H2. cbn. rewrite H3. cbn.
  by destruct e.
Qed.

Lemma add_friend_serializer_raises_witness :
  let o := run InMemory.lib
             (FriendViewSet.add_friend misconfigured_view
                (Request.mk InMemory.bob {["username" := VStr "carol"]})) InMemory.w0 in
  InMemory.pending (Outcome.world o)
    = [InMemory.carol_to_alice;
       FriendshipRequest.mk 8 InMemory.bob InMemory.carol (VStr "")
         "2024-05-02T12:00:00Z" None None]
  ∧ Outcome.returned o = inl (OtherError "ImproperlyConfigured" "nickname").
Proof.
  pose proof (add_friend_serializer_raises InMemory.lib misconfigured_view
                (Request.mk InMemory.bob {["username" := VStr "carol"]})
                InMemory.w0 InMemory.w0
                (InMemory.mk [InMemory.alice; InMemory.bob; InMemory.carol] [(1, 2); (2, 1)]
                   [InMemory.carol_to_alice;
                    FriendshipRequest.mk 8 InMemory.bob InMemory.carol (VStr "")
                      "2024-05-02T12:00:00Z" None None] 9 "2024-05-02T12:00:00Z")
                InMemory.carol
                (FriendshipRequest.mk 8 InMemory.bob InMemory.carol (VStr "")
                   "2024-05-02T12:00:00Z" None None)
                (OtherError "ImproperlyConfigured" "nickname")
                eq_refl eq_refl eq_refl) as [Hw Hr].
  split.
  - exact (f_equal InMemory.pending Hw).
  - exact Hr.
Defined.

(** ** The request listings *)

(** [requests], [sent_requests] and [rejected_requests] answer with the
    many-item serialization, by the configured friendship-request
    serializer, of what [unrejected_requests], [sent_requests] and
    [rejected_requests] of the library returned for the requesting user:
    one item per request, in the library's order, with status 200.  The
    user serializer is not involved. *)
Theorem listings_serialize_requests {W : Type} (lib : library W) (self : FriendViewSet.t)
    (request : Request.t) (w w1 : W) (l : listing)
    (friend_requests : list FriendshipRequest.t) :
  let query := listing_query l (Request.user request) in
  lib _ query w = (inr friend_requests, w1) →
  let cls := FriendViewSet.friendshiprequest_serializer_class self in
  let o := run lib (action_handler (listing_action l) self request) w in
  Outcome.world o = w1
  ∧ Outcome.trace o
    = [Ev query (inr friend_requests);
       Ev (serializer_data cls (many (IRequest <$> friend_requests)))
          (data_of cls (many (IRequest <$> friend_requests)))]
  ∧ Outcome.returned o
    = result_bind (data_of cls (many (IRequest <$> friend_requests)))
        (λ d, inr (Response.ok d))
  ∧ ∀ resp, Outcome.returned o = inr resp →
      ∃ items, Response.data resp = VList items
               ∧ Response.status_code resp = status.HTTP_200_OK
               ∧ Forall2 (λ r item, to_representation cls (IRequest r) = inr item)
                   friend_requests items.
Proof.
  intros query H cls o. subst query o.
  assert (Hrun : run lib (action_handler (listing_action l) self request) w
                 = Outcome.mk
                     (result_bind (data_of cls (many (IRequest <$> friend_requests)))
                        (λ d, inr (Response.ok d)))
                     w1
                     [Ev (listing_query l (Request.user request)) (inr friend_requests);
                      Ev (serializer_data cls (many (IRequest <$> friend_requests)))
                         (data_of cls (many (IRequest <$> friend_requests)))]).
  { destruct l; cbn in H |- *; rewrite H; cbn; fold cls;
      by destruct (data_of cls (many (IRequest <$> friend_requests))). }
  rewrite Hrun. cbn. split_and!; try done.
  destruct (data_of cls (many (IRequest <$> friend_requests))) as [e|d] eqn:Hd; cbn; [done|].
  intros resp [= <-].
  destruct (data_of_many _ _ _ Hd) as (vs & -> & Hall).
  exists vs. split_and!; try done. by apply Forall2_fmap_l in Hall.
Qed.

Lemma listings_serialize_requests_witness :
  Outcome.returned
    (run InMemory.lib (FriendViewSet.requests InMemory.view (Request.mk InMemory.alice ∅))
       InMemory.w0)
  = inr (Response.ok
           (VList [VDict [("id", VInt 7); ("from_user", VInt 3); ("to_user", VInt 1);
                          ("message", VStr "hello")]])).
Proof.
  exact (proj1 (proj2 (proj2 (listings_serialize_requests InMemory.lib InMemory.view
                                (Request.mk InMemory.alice ∅) InMemory.w0 InMemory.w0
                                unrejected [InMemory.carol_to_alice] eq_refl)))).
Defined.

(** ** Responses *)

(** Whatever the library does, a response that an action returns has one
    of the action's own status codes: 200 for the listings, 200 or 400
    for [retrieve], 201 or 400 for [add_friend], [accept_request] and
    [reject_request], 204 or 400 for [remove_friend].  A 400 body, and
    every body of [remove_friend], [accept_request] and [reject_request],
    is a dict with the single key 'message' and a string under it. *)
Theorem action_responses {W : Type} (lib : library W) (self : FriendViewSet.t)
    (request : Request.t) (w : W) (a : action) (resp : Response.t) :
  Outcome.returned (run lib (action_handler a self request) w) = inr resp →
  Response.status_code resp ∈ statuses a
  ∧ (Response.status_code resp = status.HTTP_400_BAD_REQUEST → is_message (Response.data resp))
  ∧ (serializer_used a self = None → is_message (Response.data resp)).
Proof.
  unfold is_message.
  destruct a; unfold action_handler, FriendViewSet.list, FriendViewSet.retrieve,
      FriendViewSet.requests, FriendViewSet.sent_requests, FriendViewSet.rejected_requests,
      FriendViewSet.add_friend, FriendViewSet.remove_friend, FriendViewSet.accept_request,
      FriendViewSet.reject_request, FriendViewSet.get_user_from_friend_data;
    run_cases lib; try done.
  all: intros [= <-]; cbn; split_and!; try done; try set_solver; eauto.
Qed.

Lemma action_responses_witness :
  204 ∈ statuses a_remove_friend.
Proof.
  exact (proj1 (action_responses InMemory.lib InMemory.view
                  (Request.mk InMemory.bob {["id" := VInt 1]}) InMemory.w0 a_remove_friend
                  (Response.mk (VDict [("message", VStr "Friend deleted.")])
                     status.HTTP_204_NO_CONTENT) eq_refl)).
Defined.

(** ** Who a call is made for *)

(** Every call into the friendship library is made for the requesting
    user.  The queries ask about [request.user]; a friendship request is
    sent, and a friendship removed, with [request.user] as the first
    party; [accept()] and [reject()] are called only on a request whose
    recipient is [request.user]. *)
Theorem calls_on_behalf_of_requester {W : Type} (lib : library W) (self : FriendViewSet.t)
    (request : Request.t) (w : W) (a : action) :
  Forall (on_behalf_of (Request.user request))
    (Outcome.trace (run lib (action_handler a self request) w)).
Proof.
  destruct a; unfold action_handler, FriendViewSet.list, FriendViewSet.retrieve,
      FriendViewSet.requests, FriendViewSet.sent_requests, FriendViewSet.rejected_requests,
      FriendViewSet.add_friend, FriendViewSet.remove_friend, FriendViewSet.accept_request,
      FriendViewSet.reject_request, FriendViewSet.get_user_from_friend_data;
    run_cases lib.
  all: repeat constructor; cbn; try done.
  all: match goal with H : User.eqb _ _ = _ |- _ => by rewrite H end.
Qed.

(** ** Mutations and serialization *)

(** A GET action makes no call that changes the friendship graph; every
    other action makes at most one, and [add_friend] makes it only by
    [Friend.objects.add_friend], [remove_friend] only by
    [Friend.objects.remove_friend], [accept_request] only by [accept()],
    [reject_request] only by [reject()].  An action serializes at most
    once, as its last call. *)
Theorem one_mutation_per_request {W : Type} (lib : library W) (self : FriendViewSet.t)
    (request : Request.t) (w : W) (a : action) :
  let tr := Outcome.trace (run lib (action_handler a self request) w) in
  (is_get a = true → List.filter is_mutation tr = [])
  ∧ (length (List.filter is_mutation tr) ≤ 1)%nat
  ∧ Forall (λ ev,
              match a, ev with
              | a_add_friend, Ev (Friend_add_friend _ _ _) _ => True
              | a_remove_friend, Ev (Friend_remove_friend _ _) _ => True
              | a_accept_request, Ev (FriendshipRequest_accept _) _ => True
              | a_reject_request, Ev (FriendshipRequest_reject _) _ => True
              | _, _ => False
              end) (List.filter is_mutation tr)
  ∧ List.filter is_serialization (removelast tr) = [].
Proof.
  destruct a; unfold action_handler, FriendViewSet.list, FriendViewSet.retrieve,
      FriendViewSet.requests, FriendViewSet.sent_requests, FriendViewSet.rejected_requests,
      FriendViewSet.add_friend, FriendViewSet.remove_friend, FriendViewSet.accept_request,
      FriendViewSet.reject_request, FriendViewSet.get_user_from_friend_data;
    run_cases lib.
  all: split_and!; try done; try (cbn; lia); repeat constructor.
Qed.

Lemma one_mutation_per_request_witness :
  List.filter is_mutation
    (Outcome.trace
       (run InMemory.lib (FriendViewSet.retrieve InMemory.view (Request.mk InMemory.alice ∅)
                            (VInt 2)) InMemory.w0))
  = [].
Proof.
  exact (proj1 (one_mutation_per_request InMemory.lib InMemory.view
                  (Request.mk InMemory.alice ∅) InMemory.w0 (a_retrieve (VInt 2))) eq_refl).
Defined.
